(** * The example DRS provider ([main.py]) and its contract

    [main.py] is a FastAPI application with five JSON routes that follow the
    GA4GH Data Repository Service API.  The handlers build Python dictionaries
    from literals and from the path parameter [object_id]; they are embedded
    here as functions on a small type of Python values, a dictionary being a
    finite map from keys to values.

    Layout: Python values and FastAPI responses; the vocabulary of the DRS
    contract (error taxonomy, Object Store, the Resolver as the contract words
    it); paths, files and streamed responses; the handlers of [main.py] and
    the routing table; the properties.

    The route [/files/{object_id}] writes an archive and streams a file: its
    handler takes the files on disk and gives them back, and its response
    carries the body iterator, which is run on the files of a later moment. *)

From stdpp Require Import gmap strings list fin_maps.
From Stdlib Require Import ZArith Ascii.

Local Open Scope Z_scope.

(** ** Python values *)

(** The values the handlers build and FastAPI serialises to JSON.  A [dict] with
    string keys is a [gmap]: equality of dictionaries, as in Python and in JSON,
    does not depend on the order of the keys. *)
#[warnings="-register-all"]
Inductive Value : Type :=
| VNone
| VBool (b : bool)
| VInt (z : Z)
| VStr (s : string)
| VList (l : list Value)
| VDict (d : gmap string Value).

(** [v[k]] when [v] is a dictionary that has the key [k]. *)
Definition item (k : string) (v : Value) : option Value :=
  match v with
  | VDict d => d !! k
  | _ => None
  end.

(** [v[k]] when it is a string. *)
Definition str_item (k : string) (v : Value) : option string :=
  match item k v with
  | Some (VStr s) => Some s
  | _ => None
  end.

(** [v[k]] when it is a list. *)
Definition list_item (k : string) (v : Value) : option (list Value) :=
  match item k v with
  | Some (VList l) => Some l
  | _ => None
  end.

(** ** Exceptions and responses *)

Inductive Exception : Type :=
| FileNotFoundError (path : string).

(** What running a handler body gives: the returned value, or the exception
    that escaped it. *)
Inductive Result (A : Type) : Type :=
| Return (a : A)
| Raise (exn : Exception).
Arguments Return {A} a.
Arguments Raise {A} exn.

Record Response : Type := mkResponse {
  status_code : Z;
  body : Value
}.

(** FastAPI's default for a handler that returns a value: status 200 and the
    value as the JSON body. *)
Definition JSONResponse (content : Value) : Response :=
  {| status_code := 200; body := content |}.

(** An exception that escapes a handler becomes a plain 500. *)
Definition InternalServerError : Response :=
  {| status_code := 500; body := VStr "Internal Server Error" |}.

Definition serve (r : Result Value) : Response :=
  match r with
  | Return content => JSONResponse content
  | Raise _ => InternalServerError
  end.

(** Reading a response body as a DRS object. *)
Definition access_methods_of (obj : Value) : list Value :=
  default [] (list_item "access_methods" obj).

(** The [access_id]s that the access methods of an object carry. *)
Definition access_ids (obj : Value) : list string :=
  omap (str_item "access_id") (access_methods_of obj).

(** The URLs of the access methods that give one directly. *)
Definition direct_urls (obj : Value) : list string :=
  omap (λ method, item "access_url" method ≫= str_item "url")
       (access_methods_of obj).

(** The [name]s, resp. [id]s, of the entries of [contents]; [None] when the
    object has no list [contents] or an entry lacks the field. *)
Definition contents_names (obj : Value) : option (list string) :=
  list_item "contents" obj ≫= mapM (str_item "name").

Definition contents_ids (obj : Value) : option (list string) :=
  list_item "contents" obj ≫= mapM (str_item "id").

(** ** The DRS contract

    The vocabulary the contract is worded in.  None of it occurs in [main.py];
    it is what the handlers are compared with. *)
Module Spec.

(** The error taxonomy and the status each error surfaces as. *)
Inductive DrsError : Type :=
| NotFoundError
| UnauthorizedError
| CyclicBundleError
| ConfigurationError.

Definition status_of (e : DrsError) : Z :=
  match e with
  | NotFoundError => 404
  | UnauthorizedError => 401
  | CyclicBundleError => 500
  | ConfigurationError => 500
  end.

Definition returns_error (e : DrsError) (r : Response) : Prop :=
  status_code r = status_of e.

#[global] Instance returns_error_dec e r : Decision (returns_error e r).
Proof. unfold returns_error. apply _. Defined.

(** An Object Store entry: a blob, or a bundle with the ids of its direct
    children, in order.  The store itself is a [gmap string Entry]
    ([Lookup(id) -> DrsObject?]). *)
Inductive Entry : Type :=
| Blob
| Bundle (children : list string).

(** Bundle [a] directly contains [b]. *)
Definition contains (store : gmap string Entry) (a b : string) : bool :=
  match store !! a with
  | Some (Bundle children) => bool_decide (b ∈ children)
  | _ => false
  end.

(** "Bundle A contains bundle B which contains bundle A". *)
Definition two_cycle (store : gmap string Entry) (a b : string) : bool :=
  contains store a b && contains store b a.

(** Some direct child of bundle [b] is itself a bundle. *)
Definition has_nested_bundle (store : gmap string Entry) (b : string) : bool :=
  match store !! b with
  | Some (Bundle children) =>
      existsb (λ c, match store !! c with Some (Bundle _) => true | _ => false end)
              children
  | _ => false
  end.

(** Keeps the first occurrence of every id. *)
Fixpoint first_occurrences (seen l : list string) : list string :=
  match l with
  | [] => []
  | x :: l =>
      if bool_decide (x ∈ seen) then first_occurrences seen l
      else x :: first_occurrences (x :: seen) l
  end.

(** Step 4 of the Resolver: every child that is a bundle is replaced by its
    own expansion, left to right; an id met again on the current path is a
    cycle.  [None] is exhausted fuel. *)
Fixpoint expand_children (fuel : nat) (store : gmap string Entry)
    (path children : list string) : option (DrsError + list string) :=
  match fuel with
  | O => None
  | S fuel =>
      foldr
        (λ child rest,
           let here :=
             match store !! child with
             | Some (Bundle grandchildren) =>
                 if bool_decide (child ∈ path) then Some (inl CyclicBundleError)
                 else expand_children fuel store (child :: path) grandchildren
             | _ => Some (inr [child])
             end in
           match here, rest with
           | Some (inr ids), Some (inr ids') => Some (inr (ids ++ ids'))
           | Some (inr _), other => other
           | other, _ => other
           end)
        (Some (inr [])) children
  end.

(** [Resolve(object_id, expand).contents] as the ids of its entries. *)
Definition Resolve_contents (store : gmap string Entry) (object_id : string)
    (expand : bool) : option (DrsError + list string) :=
  match store !! object_id with
  | None => Some (inl NotFoundError)
  | Some Blob => Some (inr [])
  | Some (Bundle children) =>
      if expand then
        match expand_children (S (size store)) store [object_id] children with
        | Some (inr ids) => Some (inr (first_occurrences [] ids))
        | other => other
        end
      else Some (inr children)
  end.

End Spec.

(** ** Paths, files and streamed responses

    What [get_examples] uses of Python and Starlette. *)

(** [os.path.join] of two components, on POSIX. *)
Module posixpath.

Definition startswith_sep (path : string) : bool :=
  match path with
  | String "/"%char _ => true
  | _ => false
  end.

Fixpoint endswith_sep (path : string) : bool :=
  match path with
  | EmptyString => false
  | String c EmptyString => bool_decide (c = "/"%char)
  | String _ rest => endswith_sep rest
  end.

Definition join (a b : string) : string :=
  if startswith_sep b then b
  else if bool_decide (a = "") || endswith_sep a then a +:+ b
  else a +:+ "/" +:+ b.

End posixpath.


(** Iterating over a file opened in binary mode gives its lines, each with its
    newline; the last line may lack one, and an empty file gives none. *)
Fixpoint readlines (data : string) : list string :=
  match data with
  | EmptyString => []
  | String c rest =>
      if bool_decide (c = "010"%char) then String c EmptyString :: readlines rest
      else match readlines rest with
           | [] => [String c EmptyString]
           | line :: lines => String c line :: lines
           end
  end.

(** [b"".join(chunks)]: the body a client receives from the chunks. *)
Definition join_chunks (chunks : list string) : string :=
  foldr String.app "" chunks.

(** Starlette's [StreamingResponse]: the status and the headers go out first,
    then the body iterator is run.  The iterator of [get_examples] opens its
    file only when it is run, on the files of that moment; [None] is the bare
    [Exception()] it raises, which carries nothing.  Of the headers, the ones
    the handler sets itself; the content type follows [media_type]. *)
Module starlette.

Record StreamingResponse : Type := mkStreamingResponse {
  status_code : Z;
  media_type : string;
  headers : gmap string string;
  body_iterator : gmap string string → option (list string)
}.

End starlette.

(** ** The handlers of [main.py] *)

Section Provider.

(** The form model [Passports] of [fuse.models.Objects] is not under the
    sources: its values are taken as they come, of a type left open. *)
Variable Passports : Type.

(** Modelled from the spec: the model classes [ExampleMetadata] and
    [ProviderExampleObject] of [fuse.models.Objects] are not under the sources.
    A fresh instance is the mapping of its declared fields to their defaults,
    left open; as the contract's DrsObject has both [access_methods] and
    [contents], the class is taken to declare the two attributes the handler
    assigns, so that an assignment updates the mapping, and [.dict()] exports
    the mapping. *)
Variable ExampleMetadata : gmap string Value.
Variable ProviderExampleObject : gmap string Value.

(** The directory of [main.py] ([pathlib.Path(__file__).parent]). *)
Variable parent : string.

(** [GET /service-info]: [json.load] of the file [service_info.json] beside
    [main.py].  The file system maps a path to the JSON document the file at
    that path holds; [open] raises on a path that has none. *)
Definition service_info (fs : gmap string Value) : Result Value :=
  let service_info_path := parent +:+ "/" +:+ "service_info.json" in
  match fs !! service_info_path with
  | Some document => Return document
  | None => Raise (FileNotFoundError service_info_path)
  end.

(** [GET /objects/{object_id}]. *)
Definition objects (object_id : string) (expand : bool) : Value :=
  let example_object := ExampleMetadata in
  let example_object :=
    <["access_methods" :=
        VList [
          VDict {[
            "type" := VStr "GET";
            "access_url" := VDict {[
              "url" := VStr ("http://localhost:8083/files/" +:+ object_id)
            ]}
          ]}
        ]]> example_object in
  let example_object :=
    if negb (bool_decide (object_id = "exampleszip.zip")) then
      <["contents" :=
          VList [
            VDict {[
              "name" := VStr object_id;
              "id" := VStr object_id;
              "drs_uri" := VStr "drs://drs.example.org/314159"
            ]}
          ]]> example_object
    else
      <["contents" :=
          VList [
            VDict {[
              "name" := VStr "HPA.csv";
              "id" := VStr "HPA.csv";
              "drs_uri" := VStr "drs://drs.example.org/314159"
            ]};
            VDict {[
              "name" := VStr "TestPhenotypes_3.csv";
              "id" := VStr "TestPhenotypes_3.csv";
              "drs_uri" := VStr "drs://drs.example.org/314159"
            ]}
          ]]> example_object in
  VDict example_object.

(** [POST /objects/{object_id}]. *)
Definition post_objects (object_id : string) (expand : bool)
    (passports : Passports) : Value :=
  let example_object := ProviderExampleObject in
  VDict example_object.

(** [GET /objects/{object_id}/access/{access_id}]. *)
Definition get_objects (object_id access_id : string) : Value :=
  VDict {[
    "url" := VStr ("http://localhost:8083/files/" +:+ object_id);
    "headers" := VStr "Authorization: None"
  ]}.

(** [POST /objects/{object_id}/access/{access_id}].  The source names this
    handler [post_objects] a second time; both stay registered, each under its
    own route. *)
Definition post_objects_access (object_id access_id : string)
    (passports : Passports) : Value :=
  VDict {[
    "url" := VStr "http://localhost/object.zip";
    "headers" := VStr "Authorization: None"
  ]}.

(** The routes of [app], a request being a route with its parameters. *)
Inductive Request : Type :=
| GET_service_info
| GET_objects (object_id : string) (expand : bool)
| POST_objects (object_id : string) (expand : bool) (passports : Passports)
| GET_objects_access (object_id access_id : string)
| POST_objects_access (object_id access_id : string) (passports : Passports).

Definition app (fs : gmap string Value) (request : Request) : Response :=
  match request with
  | GET_service_info => serve (service_info fs)
  | GET_objects object_id expand => serve (Return (objects object_id expand))
  | POST_objects object_id expand passports =>
      serve (Return (post_objects object_id expand passports))
  | GET_objects_access object_id access_id =>
      serve (Return (get_objects object_id access_id))
  | POST_objects_access object_id access_id passports =>
      serve (Return (post_objects_access object_id access_id passports))
  end.

(** Modelled from the spec: the file [service_info.json] is not under the
    sources.  Of the document the contract fixes the entry [type], with the
    group [org.ga4gh] and the artifact [drs]; the other entries are left
    open. *)
Definition service_info_json (others : gmap string Value) : Value :=
  VDict (<["type" := VDict {[ "group" := VStr "org.ga4gh";
                              "artifact" := VStr "drs" ]}]> others).

(** *** The file route *)

(** The working directory of the process: a relative path is a path below
    it. *)
Variable cwd : string.

(** The bytes that the [zipfile] module has put on disk for an archive with
    these members (name in the archive, content), before ([false]) and after
    ([true]) [close]. *)
Variable zipfile_bytes : bool → list (string * string) → string.

(** The files on disk are a map from the absolute path of a regular file to
    its bytes; a path is looked up as it is spelled ([..] and links are not
    resolved). *)
Definition abspath (path : string) : string := posixpath.join cwd path.

(** [pathlib.Path(path).exists()]. *)
Definition exists_ (files : gmap string string) (path : string) : bool :=
  bool_decide (is_Some (files !! abspath path)).

(** An open [ZipFile]: where it is written and the members it has so far. *)
Record ZipFile : Type := mkZipFile {
  filename : string;
  namelist : list (string * string)
}.

(** [ZipFile(file, 'w')] creates the file, or truncates it. *)
Definition ZipFile_w (file : string) (files : gmap string string) :
    ZipFile * gmap string string :=
  ({| filename := file; namelist := [] |},
   <[abspath file := zipfile_bytes false []]> files).

(** [ezip.write(path, arcname)] reads the file at [path], which raises when
    there is none, and appends it. *)
Definition ZipFile_write (ezip : ZipFile) (path arcname : string)
    (files : gmap string string) : Result ZipFile * gmap string string :=
  match files !! abspath path with
  | None => (Raise (FileNotFoundError path), files)
  | Some data =>
      let members := namelist ezip ++ [(arcname, data)] in
      (Return {| filename := filename ezip; namelist := members |},
       <[abspath (filename ezip) := zipfile_bytes false members]> files)
  end.

(** [ezip.close()]. *)
Definition ZipFile_close (ezip : ZipFile) (files : gmap string string) :
    gmap string string :=
  <[abspath (filename ezip) := zipfile_bytes true (namelist ezip)]> files.

(** The generator [iterfile] of [get_examples], run on the files of the
    moment: any failure of [open] becomes [raise Exception()]. *)
Definition iterfile (local_path : string) (files : gmap string string) :
    option (list string) :=
  match files !! abspath local_path with
  | Some file_data => Some (readlines file_data)
  | None => None
  end.

(** [GET /files/{object_id}]: the outcome of the handler and the files it
    leaves. *)
Definition get_examples (object_id : string) (files : gmap string string) :
    Result starlette.StreamingResponse * gmap string string :=
  let examples_zip_path := "exampleszip" in
  let generated : Result unit * gmap string string :=
    if negb (exists_ files examples_zip_path) then
      let local_path := posixpath.join parent "examples" in
      let '(ezip, files) := ZipFile_w "exampleszip" files in
      match ZipFile_write ezip (posixpath.join local_path "HPA.csv") "HPA.csv" files with
      | (Raise exn, files) => (Raise exn, files)
      | (Return ezip, files) =>
          match ZipFile_write ezip (posixpath.join local_path "TestPhenotypes_3.csv")
                              "TestPhenotypes_3.csv" files with
          | (Raise exn, files) => (Raise exn, files)
          | (Return ezip, files) => (Return tt, ZipFile_close ezip files)
          end
      end
    else (Return tt, files) in
  match generated with
  | (Raise exn, files) => (Raise exn, files)
  | (Return _, files) =>
      let '(local_path, file_type) :=
        if negb (bool_decide (object_id = "exampleszip.zip")) then
          let dir_path := posixpath.join parent "examples" in
          (posixpath.join dir_path object_id, "text/csv")
        else
          (object_id, "application/zip") in
      (Return {| starlette.status_code := 200;
                 starlette.media_type := file_type;
                 starlette.headers :=
                   {[ "Content-Disposition" := "attachment; filename=examples" ]};
                 starlette.body_iterator := iterfile local_path |},
       files)
  end.

(** *** The origins given to the CORS middleware *)

(** [os.getenv]. *)
Variable getenv : string → option string.

(** How an f-string prints the result of [os.getenv]: the value, or [None]
    for a variable that is not set. *)
Definition format_env (value : option string) : string := default "None" value.

(** The list [origins]; its third entry is not an f-string. *)
Definition origins : list string :=
  [ "http://" +:+ format_env (getenv "HOSTNAME") +:+ ":" +:+
      format_env (getenv "HOSTPORT");
    "http://" +:+ format_env (getenv "HOSTNAME");
    "http://localhost:{os.getenv('HOSTPORT')}";
    "http://localhost";
    "*" ].

(** ** Sample data

    The example files the provider serves, as an Object Store; a bundle with a
    nested bundle; two bundles that contain each other. *)

Definition store_examples : gmap string Spec.Entry :=
  {[ "exampleszip.zip" := Spec.Bundle ["HPA.csv"; "TestPhenotypes_3.csv"];
     "HPA.csv" := Spec.Blob;
     "TestPhenotypes_3.csv" := Spec.Blob ]}.

Definition store_nested : gmap string Spec.Entry :=
  {[ "B" := Spec.Bundle ["C"; "x"];
     "C" := Spec.Bundle ["y"; "z"];
     "x" := Spec.Blob; "y" := Spec.Blob; "z" := Spec.Blob ]}.

Definition store_cycle : gmap string Spec.Entry :=
  {[ "A" := Spec.Bundle ["B"]; "B" := Spec.Bundle ["A"] ]}.

(** A model instance to run the handlers on. *)
Definition sample_model : gmap string Value :=
  {[ "id" := VStr "314159";
     "self_uri" := VStr "drs://drs.example.org/314159";
     "access_methods" := VList [];
     "contents" := VList [] ]}.

(** Files to run the file route on: the two example files below [/app], the
    working directory being [/srv]; a stand-in for the bytes of an archive;
    an environment. *)
Definition newline : string := String "010"%char "".

Definition sample_files : gmap string string :=
  {[ "/app/examples/HPA.csv" :=
       "Gene,Tissue" +:+ newline +:+ "TSPAN6,liver" +:+ newline;
     "/app/examples/TestPhenotypes_3.csv" := "id,phenotype" ]}.

Definition sample_zipfile_bytes (closed : bool)
    (members : list (string * string)) : string :=
  (if closed then "closed:" else "open:") +:+
  foldr (λ member rest, member.1 +:+ "=" +:+ member.2 +:+ ";" +:+ rest) "" members.

Definition sample_getenv (name : string) : option string :=
  if bool_decide (name = "HOSTNAME") then Some "fuse-provider-example"
  else if bool_decide (name = "HOSTPORT") then Some "8083"
  else None.

(** ** Properties of the handlers *)

Lemma item_objects_access_methods (object_id : string) (expand : bool) :
  item "access_methods" (objects object_id expand) =
  Some (VList [VDict {[ "type" := VStr "GET";
                        "access_url" := VDict {[
                          "url" := VStr ("http://localhost:8083/files/" +:+ object_id) ]} ]}]).
Proof.
  unfold objects, item. destruct (negb _).
  - rewrite lookup_insert_ne by done. apply lookup_insert_eq.
  - rewrite lookup_insert_ne by done. apply lookup_insert_eq.
Qed.

Lemma item_objects_contents (object_id : string) (expand : bool) :
  item "contents" (objects object_id expand) =
  Some (VList
    (if bool_decide (object_id = "exampleszip.zip") then
       [VDict {[ "name" := VStr "HPA.csv"; "id" := VStr "HPA.csv";
                 "drs_uri" := VStr "drs://drs.example.org/314159" ]};
        VDict {[ "name" := VStr "TestPhenotypes_3.csv";
                 "id" := VStr "TestPhenotypes_3.csv";
                 "drs_uri" := VStr "drs://drs.example.org/314159" ]}]
     else
       [VDict {[ "name" := VStr object_id; "id" := VStr object_id;
                 "drs_uri" := VStr "drs://drs.example.org/314159" ]}])).
Proof.
  unfold objects, item.
  destruct (bool_decide (object_id = "exampleszip.zip")); simpl;
    apply lookup_insert_eq.
Qed.

(** The fields the handler does not assign keep the default of the model. *)
Lemma item_objects_default (k object_id : string) (expand : bool) :
  k ≠ "access_methods" → k ≠ "contents" →
  item k (objects object_id expand) = ExampleMetadata !! k.
Proof.
  intros Ha Hc. unfold objects, item.
  destruct (negb _); by rewrite !lookup_insert_ne.
Qed.

Lemma contents_names_objects (object_id : string) (expand : bool) :
  contents_names (objects object_id expand) =
  Some (if bool_decide (object_id = "exampleszip.zip")
        then ["HPA.csv"; "TestPhenotypes_3.csv"] else [object_id]).
Proof.
  unfold contents_names, list_item. rewrite item_objects_contents.
  by destruct (bool_decide _).
Qed.

Lemma contents_ids_objects (object_id : string) (expand : bool) :
  contents_ids (objects object_id expand) =
  Some (if bool_decide (object_id = "exampleszip.zip")
        then ["HPA.csv"; "TestPhenotypes_3.csv"] else [object_id]).
Proof.
  unfold contents_ids, list_item. rewrite item_objects_contents.
  by destruct (bool_decide _).
Qed.

Lemma access_ids_objects (object_id : string) (expand : bool) :
  access_ids (objects object_id expand) = [].
Proof.
  unfold access_ids, access_methods_of, list_item.
  by rewrite item_objects_access_methods.
Qed.

(** The handler does not read [expand]. *)
Lemma objects_expand (object_id : string) (expand expand' : bool) :
  objects object_id expand = objects object_id expand'.
Proof. reflexivity. Qed.

Lemma direct_urls_objects (object_id : string) (expand : bool) :
  direct_urls (objects object_id expand) =
  ["http://localhost:8083/files/" +:+ object_id].
Proof.
  unfold direct_urls, access_methods_of, list_item.
  by rewrite item_objects_access_methods.
Qed.

(** The access URL determines the object id. *)
Lemma objects_inj (object_id object_id' : string) (expand expand' : bool) :
  objects object_id expand = objects object_id' expand' → object_id = object_id'.
Proof.
  intros H. apply (f_equal direct_urls) in H.
  rewrite !direct_urls_objects in H.
  apply (inj (λ u, [u])) in H. by apply (inj (String.app _)) in H.
Qed.

(** A 200 is none of the errors of the contract. *)
Lemma JSONResponse_no_error (e : Spec.DrsError) (content : Value) :
  ¬ Spec.returns_error e (JSONResponse content).
Proof. by destruct e. Qed.

(** ** The claims of the contract, on the routes *)

(** C1, as the provider has it: for an Object Store in which bundle [a]
    contains bundle [b] and [b] contains [a], [GET /objects/{a}] with
    [expand=true] returns (the handler is not recursive and reads no store)
    the example object with status 200, and not [CyclicBundleError]. *)
Theorem expand_of_cyclic_bundle_returns_object
    (store : gmap string Spec.Entry) (a b : string) (fs : gmap string Value) :
  Spec.two_cycle store a b = true →
  app fs (GET_objects a true) = JSONResponse (objects a true) ∧
  status_code (app fs (GET_objects a true)) = 200 ∧
  ¬ Spec.returns_error Spec.CyclicBundleError (app fs (GET_objects a true)).
Proof.
  intros _. split_and!; [done | done |]. apply JSONResponse_no_error.
Qed.

(** C2, as the provider has it: for a bundle [b] with nested bundles,
    [GET /objects/{b}] gives the same response under [expand=true] and under
    [expand=false], and under both the entries of [contents] are the fixed two
    of [exampleszip.zip], or else the one entry [b] itself. *)
Theorem expand_is_ignored
    (store : gmap string Spec.Entry) (b : string) (fs : gmap string Value) :
  Spec.has_nested_bundle store b = true →
  app fs (GET_objects b true) = app fs (GET_objects b false) ∧
  ∀ expand : bool,
    contents_ids (body (app fs (GET_objects b expand))) =
    Some (if bool_decide (b = "exampleszip.zip")
          then ["HPA.csv"; "TestPhenotypes_3.csv"] else [b]).
Proof.
  intros _. split.
  - unfold app. by rewrite (objects_expand b true false).
  - intros expand. apply contents_ids_objects.
Qed.

(** C3, as the provider has it: for an [object_id] absent from the Object
    Store, [GET /objects/{object_id}] returns the example object with status
    200, and not [NotFoundError]. *)
Theorem absent_object_returns_object
    (store : gmap string Spec.Entry) (object_id : string) (expand : bool)
    (fs : gmap string Value) :
  store !! object_id = None →
  app fs (GET_objects object_id expand) = JSONResponse (objects object_id expand) ∧
  status_code (app fs (GET_objects object_id expand)) = 200 ∧
  ¬ Spec.returns_error Spec.NotFoundError (app fs (GET_objects object_id expand)).
Proof.
  intros _. split_and!; [done | done |]. apply JSONResponse_no_error.
Qed.

(** C4, as the provider has it: whatever the Authorization collaborator
    [Validate] says of the passports, both POST routes answer 200 with their
    fixed body, and not [UnauthorizedError]. *)
Theorem denied_passport_returns_object
    (Validate : Passports → bool) (passports : Passports)
    (object_id access_id : string) (expand : bool) (fs : gmap string Value) :
  Validate passports = false →
  app fs (POST_objects object_id expand passports) =
    JSONResponse (VDict ProviderExampleObject) ∧
  app fs (POST_objects_access object_id access_id passports) =
    JSONResponse (VDict {[ "url" := VStr "http://localhost/object.zip";
                           "headers" := VStr "Authorization: None" ]}) ∧
  ¬ Spec.returns_error Spec.UnauthorizedError
      (app fs (POST_objects object_id expand passports)) ∧
  ¬ Spec.returns_error Spec.UnauthorizedError
      (app fs (POST_objects_access object_id access_id passports)).
Proof.
  intros _. split_and!; [done | done | |]; apply JSONResponse_no_error.
Qed.

(** C5, as the provider has it: for an [object_id] present in the Object
    Store, the [id] of the object that [GET /objects/{object_id}] returns is
    the default [id] of the model [ExampleMetadata], whatever [object_id]
    is. *)
Theorem object_id_is_model_default
    (store : gmap string Spec.Entry) (object_id : string) (expand : bool)
    (fs : gmap string Value) :
  is_Some (store !! object_id) →
  item "id" (body (app fs (GET_objects object_id expand))) =
  ExampleMetadata !! "id".
Proof. intros _. by apply item_objects_default. Qed.

(** C6, as the provider has it: [GET /objects/{object_id}/access/{access_id}]
    answers 200 for every [access_id], and not [NotFoundError], although no
    access method of the object carries an [access_id]; the body has the two
    keys [url], the files URL of [object_id], which is not empty, and
    [headers], the string [Authorization: None]. *)
Theorem access_url_for_every_access_id
    (object_id access_id : string) (fs : gmap string Value) :
  app fs (GET_objects_access object_id access_id) =
    JSONResponse
      (VDict {[ "url" := VStr ("http://localhost:8083/files/" +:+ object_id);
                "headers" := VStr "Authorization: None" ]}) ∧
  str_item "url" (body (app fs (GET_objects_access object_id access_id))) =
    Some ("http://localhost:8083/files/" +:+ object_id) ∧
  "http://localhost:8083/files/" +:+ object_id ≠ "" ∧
  item "headers" (body (app fs (GET_objects_access object_id access_id))) =
    Some (VStr "Authorization: None") ∧
  ¬ Spec.returns_error Spec.NotFoundError
      (app fs (GET_objects_access object_id access_id)) ∧
  ∀ expand : bool, access_id ∉ access_ids (objects object_id expand).
Proof.
  split_and!; try done.
  intros expand. rewrite access_ids_objects. apply not_elem_of_nil.
Qed.

(** C7: when [service_info.json] holds the document of the contract,
    [GET /service-info] returns a document whose [type] is exactly the group
    [org.ga4gh] with the artifact [drs]. *)
Theorem service_info_type (fs others : gmap string Value) :
  fs !! (parent +:+ "/" +:+ "service_info.json") = Some (service_info_json others) →
  ∃ document : Value,
    app fs GET_service_info = JSONResponse document ∧
    item "type" document =
      Some (VDict {[ "group" := VStr "org.ga4gh"; "artifact" := VStr "drs" ]}).
Proof.
  intros Hfile. exists (service_info_json others). split.
  - unfold app, service_info. by rewrite Hfile.
  - apply lookup_insert_eq.
Qed.

(** C8, as the provider has it: the two variants of a path do not share a
    body.  [POST /objects/{object_id}] returns the fixed model
    [ProviderExampleObject] for every [object_id], while the body of
    [GET /objects/{object_id}] determines [object_id]; the access URL of the GET
    variant is the files URL of [object_id], that of the POST variant is
    [http://localhost/object.zip], and the two bodies differ for every
    [object_id]; only [headers] is common. *)
Theorem get_and_post_bodies
    (object_id access_id : string) (expand : bool) (passports : Passports)
    (fs : gmap string Value) :
  body (app fs (POST_objects object_id expand passports)) =
    VDict ProviderExampleObject ∧
  (∀ object_id' : string,
     body (app fs (GET_objects object_id expand)) =
     body (app fs (GET_objects object_id' expand)) → object_id = object_id') ∧
  str_item "url" (body (app fs (GET_objects_access object_id access_id))) =
    Some ("http://localhost:8083/files/" +:+ object_id) ∧
  str_item "url" (body (app fs (POST_objects_access object_id access_id passports))) =
    Some "http://localhost/object.zip" ∧
  body (app fs (GET_objects_access object_id access_id)) ≠
    body (app fs (POST_objects_access object_id access_id passports)) ∧
  item "headers" (body (app fs (GET_objects_access object_id access_id))) =
    item "headers" (body (app fs (POST_objects_access object_id access_id passports))).
Proof.
  split_and!.
  - done.
  - intros object_id'. apply objects_inj.
  - done.
  - done.
  - intros H. apply (f_equal (str_item "url")) in H. by simplify_eq/=.
  - done.
Qed.

(** C9: for every [object_id], [GET /objects/{object_id}] returns an object
    whose [access_methods] is the one method of type [GET] with the files URL
    of [object_id], and whose [contents] has exactly the two entries named
    [HPA.csv] and [TestPhenotypes_3.csv] when [object_id] is
    [exampleszip.zip], and otherwise exactly one entry, whose name and id are
    [object_id]. *)
Theorem objects_access_methods_and_contents
    (object_id : string) (expand : bool) (fs : gmap string Value) :
  item "access_methods" (body (app fs (GET_objects object_id expand))) =
    Some (VList [VDict {[
      "type" := VStr "GET";
      "access_url" := VDict {[
        "url" := VStr ("http://localhost:8083/files/" +:+ object_id) ]} ]}]) ∧
  ∃ entries : list Value,
    item "contents" (body (app fs (GET_objects object_id expand))) =
      Some (VList entries) ∧
    if bool_decide (object_id = "exampleszip.zip") then
      length entries = 2%nat ∧
      contents_names (body (app fs (GET_objects object_id expand))) =
        Some ["HPA.csv"; "TestPhenotypes_3.csv"]
    else
      length entries = 1%nat ∧
      contents_names (body (app fs (GET_objects object_id expand))) =
        Some [object_id] ∧
      contents_ids (body (app fs (GET_objects object_id expand))) =
        Some [object_id].
Proof.
  split; [apply item_objects_access_methods |].
  eexists. split; [apply item_objects_contents |].
  change (body _) with (objects object_id expand).
  rewrite contents_names_objects, contents_ids_objects.
  by destruct (bool_decide _).
Qed.

(** C10: the response of [GET /objects/{object_id}/access/{access_id}] is the
    same for every two values of [access_id], and the responses of the two
    POST routes are the same for every two values of [passports]. *)
Theorem access_id_and_passports_unused
    (object_id : string) (fs : gmap string Value) :
  (∀ access_id access_id' : string,
     app fs (GET_objects_access object_id access_id) =
     app fs (GET_objects_access object_id access_id')) ∧
  (∀ (expand : bool) (passports passports' : Passports),
     app fs (POST_objects object_id expand passports) =
     app fs (POST_objects object_id expand passports')) ∧
  (∀ (access_id : string) (passports passports' : Passports),
     app fs (POST_objects_access object_id access_id passports) =
     app fs (POST_objects_access object_id access_id passports')).
Proof. by split_and!. Qed.

(** ** The file route *)

(** The chunks of a file put together are the file. *)
Lemma join_chunks_readlines (data : string) :
  join_chunks (readlines data) = data.
Proof.
  induction data as [|c rest IH]; [done |].
  cbn [readlines]. case_bool_decide.
  - change (String c (join_chunks (readlines rest)) = String c rest).
    by rewrite IH.
  - destruct (readlines rest) as [|line lines].
    + cbn in IH. by subst rest.
    + change (String c (join_chunks (line :: lines)) = String c rest).
      by rewrite IH.
Qed.

(** No chunk is empty. *)
Lemma readlines_nonempty (data : string) :
  Forall (λ line, line ≠ "") (readlines data).
Proof.
  induction data as [|c rest IH]; [constructor |].
  cbn [readlines]. case_bool_decide.
  - by constructor.
  - destruct (readlines rest) as [|line lines].
    + by repeat constructor.
    + inversion_clear IH. by constructor.
Qed.

Lemma exists__true (files : gmap string string) (path : string) :
  exists_ files path = true ↔ is_Some (files !! abspath path).
Proof. unfold exists_. apply bool_decide_eq_true. Qed.

Lemma exists__false (files : gmap string string) (path : string) :
  exists_ files path = false ↔ files !! abspath path = None.
Proof.
  unfold exists_. rewrite bool_decide_eq_false. symmetry. apply eq_None_not_Some.
Qed.

(** The archive is written under one name and asked for under another. *)
Lemma abspath_exampleszip_zip :
  abspath "exampleszip.zip" ≠ abspath "exampleszip".
Proof.
  unfold abspath, posixpath.join. cbn [posixpath.startswith_sep].
  destruct (_ || _); intros H.
  - by apply (inj (String.app cwd)) in H.
  - apply (inj (String.app cwd)) in H. by apply (inj (String.app "/")) in H.
Qed.

(** With a file [exampleszip] there, nothing is written. *)
Lemma get_examples_skips
    (object_id : string) (files : gmap string string) :
  is_Some (files !! abspath "exampleszip") →
  ∃ response : starlette.StreamingResponse,
    get_examples object_id files = (Return response, files) ∧
    starlette.status_code response = 200.
Proof.
  intros Hzip. apply exists__true in Hzip.
  unfold get_examples. rewrite Hzip. cbn [negb].
  destruct (negb (bool_decide _)); eexists; split; reflexivity.
Qed.

(** With none, and the two example files there, the archive is written. *)
Lemma get_examples_writes
    (object_id : string) (files : gmap string string) (hpa phenotypes : string) :
  files !! abspath "exampleszip" = None →
  files !! abspath (posixpath.join (posixpath.join parent "examples") "HPA.csv") =
    Some hpa →
  files !! abspath (posixpath.join (posixpath.join parent "examples")
                                   "TestPhenotypes_3.csv") = Some phenotypes →
  ∃ response : starlette.StreamingResponse,
    get_examples object_id files =
    (Return response,
     <[abspath "exampleszip" :=
         zipfile_bytes true [("HPA.csv", hpa); ("TestPhenotypes_3.csv", phenotypes)]]>
       files).
Proof.
  intros Hzip Hhpa Hphen.
  assert (Hne1 : abspath "exampleszip" ≠
                 abspath (posixpath.join (posixpath.join parent "examples") "HPA.csv"))
    by congruence.
  assert (Hne2 : abspath "exampleszip" ≠
                 abspath (posixpath.join (posixpath.join parent "examples")
                                         "TestPhenotypes_3.csv"))
    by congruence.
  unfold get_examples. rewrite (proj2 (exists__false _ _) Hzip). cbn [negb].
  unfold ZipFile_w, ZipFile_write, ZipFile_close. cbn [filename namelist].
  rewrite lookup_insert_ne, Hhpa by done. cbn [filename namelist app].
  rewrite lookup_insert_ne, lookup_insert_ne, Hphen by done.
  cbn [filename namelist app]. rewrite !insert_insert_eq.
  destruct (negb (bool_decide _)); eexists; reflexivity.
Qed.

(** X1: once a file [exampleszip] is there, [GET /files/{object_id}] returns a
    response for every [object_id] and leaves the files as they are. *)
Theorem get_examples_archive_present
    (object_id : string) (files : gmap string string) :
  is_Some (files !! abspath "exampleszip") →
  ∃ response : starlette.StreamingResponse,
    get_examples object_id files = (Return response, files) ∧
    starlette.status_code response = 200.
Proof. apply get_examples_skips. Qed.

(** X2: with no file [exampleszip] and both example files there, the call
    returns a response and writes the closed archive of the two files, under
    the names [HPA.csv] and [TestPhenotypes_3.csv] and in that order, at
    [exampleszip]; no other file changes. *)
Theorem get_examples_generates_archive
    (object_id : string) (files : gmap string string) (hpa phenotypes : string) :
  files !! abspath "exampleszip" = None →
  files !! abspath (posixpath.join (posixpath.join parent "examples") "HPA.csv") =
    Some hpa →
  files !! abspath (posixpath.join (posixpath.join parent "examples")
                                   "TestPhenotypes_3.csv") = Some phenotypes →
  ∃ response : starlette.StreamingResponse,
    get_examples object_id files =
    (Return response,
     <[abspath "exampleszip" :=
         zipfile_bytes true [("HPA.csv", hpa); ("TestPhenotypes_3.csv", phenotypes)]]>
       files).
Proof. apply get_examples_writes. Qed.






(** The response, when there is one. *)
Lemma get_examples_Return
    (object_id : string) (files files' : gmap string string)
    (response : starlette.StreamingResponse) :
  get_examples object_id files = (Return response, files') →
  response =
    {| starlette.status_code := 200;
       starlette.media_type :=
         if bool_decide (object_id = "exampleszip.zip")
         then "application/zip" else "text/csv";
       starlette.headers :=
         {[ "Content-Disposition" := "attachment; filename=examples" ]};
       starlette.body_iterator :=
         iterfile
           (if bool_decide (object_id = "exampleszip.zip") then object_id
            else posixpath.join (posixpath.join parent "examples") object_id) |}.
Proof.
  unfold get_examples.
  destruct (if negb (exists_ files "exampleszip") then _ else _)
    as [[[]|exn] files0]; [| discriminate].
  destruct (bool_decide (object_id = "exampleszip.zip")); cbn [negb];
    intros H; by simplify_eq.
Qed.

(** The files after a call: those before it, with [exampleszip] written when
    it was not there. *)
Lemma get_examples_files (object_id : string) (files : gmap string string) :
  (is_Some (files !! abspath "exampleszip") ∧
   (get_examples object_id files).2 = files) ∨
  (files !! abspath "exampleszip" = None ∧
   ∃ data : string,
     (get_examples object_id files).2 = <[abspath "exampleszip" := data]> files).
Proof.
  destruct (files !! abspath "exampleszip") as [archive|] eqn:Hzip.
  - left. split; [done |].
    destruct (get_examples_skips object_id files) as (r & -> & _); done.
  - right. split; [done |].
    unfold get_examples. rewrite (proj2 (exists__false _ _) Hzip). cbn [negb].
    unfold ZipFile_w, ZipFile_write, ZipFile_close. cbn [filename namelist].
    destruct (_ !! abspath (posixpath.join _ "HPA.csv")) as [hpa|];
      [| by eexists].
    cbn [filename namelist app].
    destruct (_ !! abspath (posixpath.join _ "TestPhenotypes_3.csv"))
      as [phenotypes|].
    + cbn [filename namelist app]. rewrite !insert_insert_eq.
      destruct (negb (bool_decide _)); by eexists.
    + rewrite insert_insert_eq. by eexists.
Qed.


(** X4: whatever the request and the files, after the call there is a file
    [exampleszip], every other path is as it was, and a further call changes
    nothing. *)
Theorem get_examples_writes_only_archive
    (object_id : string) (files : gmap string string) :
  is_Some ((get_examples object_id files).2 !! abspath "exampleszip") ∧
  (∀ path : string,
     path ≠ abspath "exampleszip" →
     (get_examples object_id files).2 !! path = files !! path) ∧
  ∀ object_id' : string,
    (get_examples object_id' (get_examples object_id files).2).2 =
    (get_examples object_id files).2.
Proof.
  assert (Hafter : is_Some ((get_examples object_id files).2 !! abspath "exampleszip")).
  { destruct (get_examples_files object_id files)
      as [[Hzip ->] | [_ [data ->]]]; [done |].
    rewrite lookup_insert_eq. by eexists. }
  split_and!; [done | |].
  - intros path Hpath.
    destruct (get_examples_files object_id files)
      as [[_ ->] | [_ [data ->]]]; [done |].
    by rewrite lookup_insert_ne.
  - intros object_id'.
    by destruct (get_examples_skips object_id' _ Hafter) as (r & -> & _).
Qed.

(** X5: with both example files there and no file [exampleszip.zip], a request
    for [exampleszip.zip] returns a response of type [application/zip] and
    leaves an archive at [exampleszip], and the body iterator, run on those
    files, raises: it opens [exampleszip.zip], which the handler never
    writes. *)
Theorem get_examples_zip_not_streamed
    (files : gmap string string) (hpa phenotypes : string) :
  files !! abspath (posixpath.join (posixpath.join parent "examples") "HPA.csv") =
    Some hpa →
  files !! abspath (posixpath.join (posixpath.join parent "examples")
                                   "TestPhenotypes_3.csv") = Some phenotypes →
  files !! abspath "exampleszip.zip" = None →
  ∃ (response : starlette.StreamingResponse) (files' : gmap string string),
    get_examples "exampleszip.zip" files = (Return response, files') ∧
    is_Some (files' !! abspath "exampleszip") ∧
    starlette.media_type response = "application/zip" ∧
    starlette.body_iterator response files' = None.
Proof.
  intros Hhpa Hphen Hzipzip.
  assert (∃ (response : starlette.StreamingResponse) (files' : gmap string string),
             get_examples "exampleszip.zip" files = (Return response, files') ∧
             is_Some (files' !! abspath "exampleszip") ∧
             files' !! abspath "exampleszip.zip" = None)
    as (response & files' & Hget & Hzip' & Hzipzip').
  { destruct (files !! abspath "exampleszip") as [archive|] eqn:Hzip.
    - destruct (get_examples_skips "exampleszip.zip" files)
        as (response & Hget & _); [by eexists |].
      exists response, files. split_and!; [done | by eexists | done].
    - destruct (get_examples_writes "exampleszip.zip" files
                  hpa phenotypes Hzip Hhpa Hphen) as (response & Hget).
      eexists response, _. split_and!; [exact Hget | |].
      + rewrite lookup_insert_eq. by eexists.
      + rewrite lookup_insert_ne; [done |].
        intros H. by apply abspath_exampleszip_zip. }
  exists response, files'. split_and!; [done | done | |].
  - by rewrite (get_examples_Return _ _ _ _ Hget).
  - rewrite (get_examples_Return _ _ _ _ Hget).
    rewrite bool_decide_eq_true_2 by done.
    cbn [starlette.body_iterator]. unfold iterfile. by rewrite Hzipzip'.
Qed.

(** X6: for an [object_id] other than [exampleszip.zip], the response is of
    type [text/csv], and when the file [object_id] of the directory
    [examples] is there as the body iterator runs, the chunks it gives are
    not empty and put together they are the bytes of that file. *)
Theorem get_examples_streams_file
    (object_id : string) (files files' later : gmap string string)
    (response : starlette.StreamingResponse) (data : string) :
  get_examples object_id files = (Return response, files') →
  object_id ≠ "exampleszip.zip" →
  later !! abspath (posixpath.join (posixpath.join parent "examples") object_id) =
    Some data →
  starlette.media_type response = "text/csv" ∧
  ∃ chunks : list string,
    starlette.body_iterator response later = Some chunks ∧
    join_chunks chunks = data ∧
    Forall (λ chunk, chunk ≠ "") chunks.
Proof.
  intros Hget Hid Hfile. rewrite (get_examples_Return _ _ _ _ Hget).
  rewrite bool_decide_eq_false_2 by done. split; [done |].
  exists (readlines data). cbn [starlette.body_iterator].
  unfold iterfile. rewrite Hfile.
  split_and!; [done | apply join_chunks_readlines | apply readlines_nonempty].
Qed.



(** X11: the archive that the file route writes holds, in order, the files
    that the object route lists as the contents of [exampleszip.zip]. *)
Theorem contents_match_archive
    (files : gmap string string) (hpa phenotypes : string) (expand : bool) :
  files !! abspath "exampleszip" = None →
  files !! abspath (posixpath.join (posixpath.join parent "examples") "HPA.csv") =
    Some hpa →
  files !! abspath (posixpath.join (posixpath.join parent "examples")
                                   "TestPhenotypes_3.csv") = Some phenotypes →
  ∃ members : list (string * string),
    (get_examples "exampleszip.zip" files).2 !! abspath "exampleszip" =
      Some (zipfile_bytes true members) ∧
    contents_names (objects "exampleszip.zip" expand) = Some members.*1 ∧
    contents_ids (objects "exampleszip.zip" expand) = Some members.*1.
Proof.
  intros Hzip Hhpa Hphen.
  destruct (get_examples_writes "exampleszip.zip" files
              hpa phenotypes Hzip Hhpa Hphen) as (response & ->).
  eexists. split; [apply lookup_insert_eq |].
  by rewrite contents_names_objects, contents_ids_objects.
Qed.

(** ** The other routes *)


(** X10: the object that [GET /objects/{object_id}] returns has the fields of
    the model and the two fields [access_methods] and [contents], no other;
    every field but these two has the default of the model. *)
Theorem objects_fields (object_id : string) (expand : bool) :
  ∃ fields : gmap string Value,
    objects object_id expand = VDict fields ∧
    dom fields = {[ "access_methods"; "contents" ]} ∪ dom ExampleMetadata ∧
    ∀ k : string,
      k ≠ "access_methods" → k ≠ "contents" → fields !! k = ExampleMetadata !! k.
Proof.
  unfold objects. destruct (negb _); eexists; (split; [reflexivity |]); split.
  - rewrite !dom_insert_L. by rewrite (assoc_L (∪)), (comm_L (∪) {["contents"]}).
  - intros k Ha Hc. by rewrite !lookup_insert_ne.
  - rewrite !dom_insert_L. by rewrite (assoc_L (∪)), (comm_L (∪) {["contents"]}).
  - intros k Ha Hc. by rewrite !lookup_insert_ne.
Qed.

(** ** The origins *)

Lemma localhost_prefix (hostname rest port : string) :
  "localhost:" +:+ port = hostname +:+ ":" +:+ rest →
  ∃ tail : string, hostname = "localhost" +:+ tail.
Proof.
  intros H.
  do 9 (destruct hostname as [|? hostname]; [discriminate H |];
        injection H as <- H).
  by exists hostname.
Qed.

(** X12: unless the host name itself begins with [localhost], the origins
    hold no [http://localhost:<port>], whatever the port and the
    environment: the entry meant for it is the text of the source, braces
    included. *)
Theorem origins_no_localhost_port (port : string) :
  (∀ tail : string, format_env (getenv "HOSTNAME") ≠ "localhost" +:+ tail) →
  port ≠ "{os.getenv('HOSTPORT')}" →
  "http://localhost:" +:+ port ∉ origins.
Proof.
  intros Hhost Hport. unfold origins. rewrite !not_elem_of_cons. split_and!.
  - intros H. apply (inj (String.app "http://") ("localhost:" +:+ port)) in H.
    apply localhost_prefix in H as [tail H]. by apply Hhost in H.
  - intros H. apply (inj (String.app "http://") ("localhost:" +:+ port)) in H.
    by apply (Hhost (":" +:+ port)).
  - intros H. by apply (inj (String.app "http://localhost:")) in H.
  - intros H. apply (inj (String.app "http://localhost") (":" +:+ port) "") in H.
    discriminate H.
  - discriminate.
  - apply not_elem_of_nil.
Qed.

End Provider.

Arguments GET_service_info {Passports}.
Arguments GET_objects {Passports} object_id expand.
Arguments POST_objects {Passports} object_id expand passports.
Arguments GET_objects_access {Passports} object_id access_id.
Arguments POST_objects_access {Passports} object_id access_id passports.

(** ** The claims at sample inputs *)

Lemma expand_of_cyclic_bundle_returns_object_witness :
  Spec.two_cycle store_cycle "A" "B" = true ∧
  app (list string) sample_model sample_model "/app" ∅ (GET_objects "A" true) =
    JSONResponse (objects sample_model "A" true) ∧
  status_code
    (app (list string) sample_model sample_model "/app" ∅ (GET_objects "A" true)) = 200 ∧
  ¬ Spec.returns_error Spec.CyclicBundleError
      (app (list string) sample_model sample_model "/app" ∅ (GET_objects "A" true)).
Proof.
  split; [reflexivity |].
  apply (expand_of_cyclic_bundle_returns_object
           (list string) sample_model sample_model "/app" store_cycle "A" "B" ∅).
  reflexivity.
Defined.

(** C1 as the contract words it fails: [store_cycle] has the cycle, the
    Resolver of the contract answers [CyclicBundleError] on it, and the route
    does not, whatever the model classes hold. *)
Lemma cyclic_bundle_not_detected :
  Spec.two_cycle store_cycle "A" "B" = true ∧
  Spec.Resolve_contents store_cycle "A" true = Some (inl Spec.CyclicBundleError) ∧
  ¬ ∃ (ExampleMetadata ProviderExampleObject : gmap string Value)
      (parent : string) (fs : gmap string Value),
      Spec.returns_error Spec.CyclicBundleError
        (app (list string) ExampleMetadata ProviderExampleObject parent fs
             (GET_objects "A" true)).
Proof.
  split_and!; [reflexivity | reflexivity |].
  intros (EM & PEO & parent & fs & H). discriminate H.
Qed.

Lemma expand_is_ignored_witness :
  Spec.has_nested_bundle store_nested "B" = true ∧
  app (list string) sample_model sample_model "/app" ∅ (GET_objects "B" true) =
    app (list string) sample_model sample_model "/app" ∅ (GET_objects "B" false) ∧
  ∀ expand : bool,
    contents_ids
      (body (app (list string) sample_model sample_model "/app" ∅
                 (GET_objects "B" expand))) = Some ["B"].
Proof.
  split; [reflexivity |].
  apply (expand_is_ignored
           (list string) sample_model sample_model "/app" store_nested "B" ∅).
  reflexivity.
Defined.

(** C2 as the contract words it fails: for the bundle [B] of [store_nested] the
    Resolver of the contract gives the blobs [y], [z], [x] under [expand=true]
    and the children [C], [x] under [expand=false]; the route gives neither,
    under either value of [expand]. *)
Lemma expand_not_implemented :
  Spec.has_nested_bundle store_nested "B" = true ∧
  Spec.Resolve_contents store_nested "B" true = Some (inr ["y"; "z"; "x"]) ∧
  Spec.Resolve_contents store_nested "B" false = Some (inr ["C"; "x"]) ∧
  ¬ ∃ (ExampleMetadata ProviderExampleObject : gmap string Value)
      (parent : string) (fs : gmap string Value) (expand : bool),
      inr <$> contents_ids
                (body (app (list string) ExampleMetadata ProviderExampleObject
                           parent fs (GET_objects "B" expand))) =
      Spec.Resolve_contents store_nested "B" expand.
Proof.
  split_and!; [reflexivity | reflexivity | reflexivity |].
  intros (EM & PEO & parent & fs & expand & H).
  change (body _) with (objects EM "B" expand) in H.
  rewrite contents_ids_objects in H.
  destruct expand; vm_compute in H; discriminate H.
Qed.

Lemma absent_object_returns_object_witness :
  store_examples !! "missing.csv" = None ∧
  app (list string) sample_model sample_model "/app" ∅
      (GET_objects "missing.csv" false) =
    JSONResponse (objects sample_model "missing.csv" false) ∧
  status_code
    (app (list string) sample_model sample_model "/app" ∅
         (GET_objects "missing.csv" false)) = 200 ∧
  ¬ Spec.returns_error Spec.NotFoundError
      (app (list string) sample_model sample_model "/app" ∅
           (GET_objects "missing.csv" false)).
Proof.
  split; [reflexivity |].
  apply (absent_object_returns_object
           (list string) sample_model sample_model "/app" store_examples
           "missing.csv" false ∅).
  reflexivity.
Defined.

(** C3 as the contract words it fails: [missing.csv] is not in the store of
    the examples, and the route does not answer [NotFoundError]. *)
Lemma absent_object_not_reported :
  store_examples !! "missing.csv" = None ∧
  Spec.Resolve_contents store_examples "missing.csv" false =
    Some (inl Spec.NotFoundError) ∧
  ¬ ∃ (ExampleMetadata ProviderExampleObject : gmap string Value)
      (parent : string) (fs : gmap string Value) (expand : bool),
      Spec.returns_error Spec.NotFoundError
        (app (list string) ExampleMetadata ProviderExampleObject parent fs
             (GET_objects "missing.csv" expand)).
Proof.
  split_and!; [reflexivity | reflexivity |].
  intros (EM & PEO & parent & fs & expand & H). discriminate H.
Qed.

Lemma denied_passport_returns_object_witness :
  (λ passports : list string, negb (bool_decide (passports = []))) [] = false ∧
  app (list string) sample_model sample_model "/app" ∅
      (POST_objects "HPA.csv" false []) = JSONResponse (VDict sample_model) ∧
  app (list string) sample_model sample_model "/app" ∅
      (POST_objects_access "HPA.csv" "signed" []) =
    JSONResponse (VDict {[ "url" := VStr "http://localhost/object.zip";
                           "headers" := VStr "Authorization: None" ]}) ∧
  ¬ Spec.returns_error Spec.UnauthorizedError
      (app (list string) sample_model sample_model "/app" ∅
           (POST_objects "HPA.csv" false [])) ∧
  ¬ Spec.returns_error Spec.UnauthorizedError
      (app (list string) sample_model sample_model "/app" ∅
           (POST_objects_access "HPA.csv" "signed" [])).
Proof.
  split; [reflexivity |].
  apply (denied_passport_returns_object
           (list string) sample_model sample_model "/app"
           (λ passports, negb (bool_decide (passports = [])))
           [] "HPA.csv" "signed" false ∅).
  reflexivity.
Defined.

(** C4 as the contract words it fails: with no passport at all, and whatever
    Authorization collaborator denies that, neither POST route answers
    [UnauthorizedError]. *)
Lemma passport_not_checked :
  ¬ ∃ (Validate : list string → bool)
      (ExampleMetadata ProviderExampleObject : gmap string Value)
      (parent : string) (fs : gmap string Value),
      Validate [] = false ∧
      (Spec.returns_error Spec.UnauthorizedError
         (app (list string) ExampleMetadata ProviderExampleObject parent fs
              (POST_objects "HPA.csv" false [])) ∨
       Spec.returns_error Spec.UnauthorizedError
         (app (list string) ExampleMetadata ProviderExampleObject parent fs
              (POST_objects_access "HPA.csv" "signed" []))).
Proof.
  intros (Validate & EM & PEO & parent & fs & _ & [H | H]); discriminate H.
Qed.

Lemma object_id_is_model_default_witness :
  is_Some (store_examples !! "HPA.csv") ∧
  item "id"
    (body (app (list string) sample_model sample_model "/app" ∅
               (GET_objects "HPA.csv" false))) = Some (VStr "314159").
Proof.
  assert (Hpresent : is_Some (store_examples !! "HPA.csv"))
    by (exists Spec.Blob; reflexivity).
  split; [exact Hpresent |].
  exact (object_id_is_model_default
           (list string) sample_model sample_model "/app" store_examples
           "HPA.csv" false ∅ Hpresent).
Defined.

(** C5 as the contract words it fails: [HPA.csv] and [TestPhenotypes_3.csv]
    are both in the store of the examples, and for no default of the model
    class does the route return each under its own id. *)
Lemma object_id_not_echoed :
  is_Some (store_examples !! "HPA.csv") ∧
  is_Some (store_examples !! "TestPhenotypes_3.csv") ∧
  ¬ ∃ (ExampleMetadata ProviderExampleObject : gmap string Value)
      (parent : string) (fs : gmap string Value),
      item "id"
        (body (app (list string) ExampleMetadata ProviderExampleObject parent fs
                   (GET_objects "HPA.csv" false))) = Some (VStr "HPA.csv") ∧
      item "id"
        (body (app (list string) ExampleMetadata ProviderExampleObject parent fs
                   (GET_objects "TestPhenotypes_3.csv" false))) =
        Some (VStr "TestPhenotypes_3.csv").
Proof.
  split_and!; [by exists Spec.Blob | by exists Spec.Blob |].
  intros (EM & PEO & parent & fs & H1 & H2).
  change (body _) with (objects EM "HPA.csv" false) in H1.
  change (body _) with (objects EM "TestPhenotypes_3.csv" false) in H2.
  rewrite item_objects_default in H1 by done.
  rewrite item_objects_default in H2 by done.
  rewrite H1 in H2. discriminate H2.
Qed.

(** C6 as the contract words it fails: [signed] is the [access_id] of no
    access method of [HPA.csv], and the route does not answer
    [NotFoundError]. *)
Lemma unmatched_access_id_not_reported :
  (∀ ExampleMetadata : gmap string Value,
     "signed" ∉ access_ids (objects ExampleMetadata "HPA.csv" false)) ∧
  ¬ ∃ (ExampleMetadata ProviderExampleObject : gmap string Value)
      (parent : string) (fs : gmap string Value),
      Spec.returns_error Spec.NotFoundError
        (app (list string) ExampleMetadata ProviderExampleObject parent fs
             (GET_objects_access "HPA.csv" "signed")).
Proof.
  split.
  - intros EM. rewrite access_ids_objects. apply not_elem_of_nil.
  - intros (EM & PEO & parent & fs & H). discriminate H.
Qed.

Lemma service_info_type_witness :
  ∃ document : Value,
    app (list string) sample_model sample_model "/app"
        {[ "/app/service_info.json" := service_info_json ∅ ]}
        GET_service_info = JSONResponse document ∧
    item "type" document =
      Some (VDict {[ "group" := VStr "org.ga4gh"; "artifact" := VStr "drs" ]}).
Proof.
  apply (service_info_type
           (list string) sample_model sample_model "/app"
           {[ "/app/service_info.json" := service_info_json ∅ ]} ∅).
  reflexivity.
Defined.

Lemma get_and_post_bodies_witness :
  body (app (list string) sample_model sample_model "/app" ∅
            (POST_objects "HPA.csv" false [])) = VDict sample_model ∧
  "HPA.csv" = "HPA.csv" ∧
  body (app (list string) sample_model sample_model "/app" ∅
            (GET_objects_access "HPA.csv" "signed")) ≠
  body (app (list string) sample_model sample_model "/app" ∅
            (POST_objects_access "HPA.csv" "signed" [])).
Proof.
  destruct (get_and_post_bodies
              (list string) sample_model sample_model "/app"
              "HPA.csv" "signed" false [] ∅)
    as (Hpost & Hinj & _ & _ & Hne & _).
  split_and!; [exact Hpost | exact (Hinj "HPA.csv" eq_refl) | exact Hne].
Defined.

(** C8 as the contract words it fails: for [HPA.csv] the body of the GET
    variant of the access route is not the body of the POST variant, whatever
    the passports. *)
Lemma get_and_post_bodies_differ :
  ¬ ∃ (ExampleMetadata ProviderExampleObject : gmap string Value)
      (parent : string) (fs : gmap string Value) (passports : list string),
      body (app (list string) ExampleMetadata ProviderExampleObject parent fs
                (GET_objects_access "HPA.csv" "signed")) =
      body (app (list string) ExampleMetadata ProviderExampleObject parent fs
                (POST_objects_access "HPA.csv" "signed" passports)).
Proof.
  intros (EM & PEO & parent & fs & passports & H).
  apply (f_equal (str_item "url")) in H. vm_compute in H. discriminate H.
Qed.

(** ** The file route and the origins at sample inputs *)

Lemma get_examples_archive_present_witness :
  is_Some (<["/srv/exampleszip" := "closed:"]> sample_files
             !! abspath "/srv" "exampleszip") ∧
  ∃ response : starlette.StreamingResponse,
    get_examples "/app" "/srv" sample_zipfile_bytes "HPA.csv"
      (<["/srv/exampleszip" := "closed:"]> sample_files) =
    (Return response, <["/srv/exampleszip" := "closed:"]> sample_files) ∧
    starlette.status_code response = 200.
Proof.
  assert (Hzip : is_Some (<["/srv/exampleszip" := "closed:"]> sample_files
                            !! abspath "/srv" "exampleszip"))
    by (eexists; reflexivity).
  split; [exact Hzip |].
  exact (get_examples_archive_present "/app" "/srv" sample_zipfile_bytes
           "HPA.csv" _ Hzip).
Defined.

Lemma get_examples_generates_archive_witness :
  ∃ response : starlette.StreamingResponse,
    get_examples "/app" "/srv" sample_zipfile_bytes "HPA.csv" sample_files =
    (Return response,
     <["/srv/exampleszip" :=
         sample_zipfile_bytes true
           [("HPA.csv", "Gene,Tissue" +:+ newline +:+ "TSPAN6,liver" +:+ newline);
            ("TestPhenotypes_3.csv", "id,phenotype")]]> sample_files).
Proof.
  apply (get_examples_generates_archive "/app" "/srv" sample_zipfile_bytes
           "HPA.csv" sample_files); reflexivity.
Defined.


Lemma get_examples_zip_not_streamed_witness :
  ∃ (response : starlette.StreamingResponse) (files' : gmap string string),
    get_examples "/app" "/srv" sample_zipfile_bytes "exampleszip.zip" sample_files =
      (Return response, files') ∧
    is_Some (files' !! abspath "/srv" "exampleszip") ∧
    starlette.media_type response = "application/zip" ∧
    starlette.body_iterator response files' = None.
Proof.
  apply (get_examples_zip_not_streamed "/app" "/srv" sample_zipfile_bytes
           sample_files
           ("Gene,Tissue" +:+ newline +:+ "TSPAN6,liver" +:+ newline)
           "id,phenotype"); reflexivity.
Defined.

Lemma get_examples_streams_file_witness :
  ∃ response : starlette.StreamingResponse,
    (get_examples "/app" "/srv" sample_zipfile_bytes "HPA.csv" sample_files).1 =
      Return response ∧
    starlette.media_type response = "text/csv" ∧
    starlette.body_iterator response sample_files =
      Some ["Gene,Tissue" +:+ newline; "TSPAN6,liver" +:+ newline].
Proof.
  destruct (get_examples_writes "/app" "/srv" sample_zipfile_bytes
              "HPA.csv" sample_files
              ("Gene,Tissue" +:+ newline +:+ "TSPAN6,liver" +:+ newline)
              "id,phenotype") as (response & Hget); [reflexivity .. |].
  exists response. split; [by rewrite Hget |].
  destruct (get_examples_streams_file "/app" "/srv" sample_zipfile_bytes
              "HPA.csv" sample_files _ sample_files response
              ("Gene,Tissue" +:+ newline +:+ "TSPAN6,liver" +:+ newline) Hget)
    as (Htype & chunks & Hchunks & _ & _); [done | reflexivity |].
  split; [exact Htype |].
  rewrite (get_examples_Return _ _ _ _ _ _ _ Hget). reflexivity.
Defined.



Lemma contents_match_archive_witness :
  ∃ members : list (string * string),
    (get_examples "/app" "/srv" sample_zipfile_bytes "exampleszip.zip"
       sample_files).2 !! abspath "/srv" "exampleszip" =
      Some (sample_zipfile_bytes true members) ∧
    contents_names (objects sample_model "exampleszip.zip" false) =
      Some members.*1 ∧
    contents_ids (objects sample_model "exampleszip.zip" false) =
      Some members.*1.
Proof.
  apply (contents_match_archive sample_model "/app" "/srv" sample_zipfile_bytes
           sample_files
           ("Gene,Tissue" +:+ newline +:+ "TSPAN6,liver" +:+ newline)
           "id,phenotype" false); reflexivity.
Defined.

Lemma origins_no_localhost_port_witness :
  "http://localhost:8083" ∉ origins sample_getenv.
Proof.
  apply (origins_no_localhost_port sample_getenv "8083"); [| discriminate].
  intros tail. discriminate.
Defined.

